(** * The Intellacc MCP server: tool registry and tool dispatcher

    A shallow embedding of [src/mcp-server.py]: the catalogue returned by
    [handle_list_tools] and the dispatcher [handle_call_tool], which proxies
    each tool to one [docker] command line (and, for the status report, one
    file read) and always answers with one block of text.

    The operating system is an oracle: what a command line or a file read
    yields is a function of the calls made so far.  Handlers are computations
    over the history of those calls, so that "no external call was made" is
    a statement about the history, and a Python exception is an outcome of
    its own that [try_except] catches. *)

From Stdlib Require Import ZArith Ascii String DecimalString.
From stdpp Require Import gmap strings list fin_maps.

Local Open Scope Z_scope.
Local Set Warnings "-register-all".

(** ** Python values *)

(** The values an argument can take: the strings and integers of the
    tools' input schemas, and the other JSON scalars [null] and booleans.
    An omitted argument is a key that the mapping does not have. *)
Inductive pyval : Type :=
  | PNone
  | PBool (b : bool)
  | PInt (z : Z)
  | PStr (s : string).

(** A call either returns or raises an [Exception]; [e] is [str(e)]. *)
Inductive outcome (A : Type) : Type :=
  | Returned (a : A)
  | Raised (e : string).
Arguments Returned {A} a.
Arguments Raised {A} e.

(** CPython prints no integer of more than this many digits. *)
Definition max_str_digits : Z := 4300.

(** [str(v)], which is also what an f-string field [{v}] prints.  An
    integer of more than 4300 digits raises a [ValueError]: it is printed
    exactly when its absolute value is below [10 ^ 4300] (lemma
    [py_str_int]).  As CPython does, the size is looked at first: an
    integer of at most [3 * 4300] bits is below [8 ^ 4300] and is printed
    without comparing it with the limit. *)
Definition py_str (v : pyval) : outcome string :=
  match v with
  | PNone => Returned "None"
  | PBool true => Returned "True"
  | PBool false => Returned "False"
  | PInt z =>
      if Z.log2 (Z.abs z) <? 3 * max_str_digits
      then Returned (NilZero.string_of_int (Z.to_int z))
      else if Z.abs z <? 10 ^ max_str_digits
      then Returned (NilZero.string_of_int (Z.to_int z))
      else Raised "Exceeds the limit (4300 digits) for integer string conversion; use sys.set_int_max_str_digits() to increase the limit"
  | PStr s => Returned s
  end.

(** Whether a text holds a NUL character. *)
Fixpoint has_nul (s : string) : bool :=
  match s with
  | EmptyString => false
  | String c s' => Ascii.eqb c "000"%char || has_nul s'
  end.

(** [type(v).__name__], as it shows in a [TypeError]. *)
Definition type_name (v : pyval) : string :=
  match v with
  | PNone => "NoneType"
  | PBool _ => "bool"
  | PInt _ => "int"
  | PStr _ => "str"
  end.

(** Truth value of [v], as [not v] and [x if v else y] test it. *)
Definition truthy (v : pyval) : bool :=
  match v with
  | PNone => false
  | PBool b => b
  | PInt z => negb (z =? 0)
  | PStr s => negb (String.eqb s "")
  end.

(** [d.get(key)] and [d.get(key, default)] on a dict with string keys.
    A key that is not a string equals none of them. *)
Definition dict_get (d : gmap string pyval) (key : pyval)
    (dflt : pyval) : pyval :=
  match key with
  | PStr k => default dflt (d !! k)
  | _ => dflt
  end.

(** [needle in hay]. *)
Definition contains (needle hay : string) : Prop :=
  exists pre post, hay = pre +:+ needle +:+ post.

(** [s.endswith(suffix)]. *)
Fixpoint endswith (s suffix : string) : bool :=
  String.eqb s suffix ||
  match s with
  | EmptyString => false
  | String _ s' => endswith s' suffix
  end.

Global Instance pyval_eq_dec : EqDecision pyval.
Proof. solve_decision. Defined.

Definition nl : string := String "010"%char "".
Definition tab : string := String "009"%char "".

(** ** The operating system and computations *)

(** What [subprocess.run(..., capture_output=True, text=True)] returns. *)
Record CompletedProcess : Type := {
  returncode : Z;
  stdout : string;
  stderr : string
}.

(** The calls that leave the process. *)
Inductive syscall : Type :=
  | Exec (argv : list string)
  | OpenRead (path : string).

(** The environment: given the calls made so far, what running a command
    line to its end, or reading a file, yields. *)
Record OS : Type := {
  os_exec : list syscall -> list string -> outcome CompletedProcess;
  os_open_read : list syscall -> string -> outcome string
}.

Definition M (A : Type) : Type := list syscall -> outcome A * list syscall.

Definition ret {A} (a : A) : M A := fun h => (Returned a, h).

Definition raise {A} (e : string) : M A := fun h => (Raised e, h).

Definition bind {A B} (c : M A) (k : A -> M B) : M B :=
  fun h =>
    match c h with
    | (Returned a, h') => k a h'
    | (Raised e, h') => (Raised e, h')
    end.

Notation "x <- c ;; k" := (bind c (fun x => k))
  (at level 100, c at next level, right associativity).

(** [try: body / except Exception as e: handler(str(e))]. *)
Definition try_except {A} (body : M A) (handler : string -> M A) : M A :=
  fun h =>
    match body h with
    | (Returned a, h') => (Returned a, h')
    | (Raised e, h') => handler e h'
    end.

(** [str(v)] or a field [{v}] of an f-string, where it stands in the
    code. *)
Definition str (v : pyval) : M string := fun h => (py_str v, h).

(** [with open(path, "r") as f: f.read()]. *)
Definition open_read (os : OS) (path : string) : M string :=
  fun h => (os_open_read os h path, h ++ [OpenRead path]).

Module subprocess.

(** One element of the argument vector: a string holding a NUL raises a
    [ValueError], a value that is not a string a [TypeError]. *)
Definition fsencode (v : pyval) : outcome string :=
  match v with
  | PStr s => if has_nul s then Raised "embedded null byte" else Returned s
  | _ =>
      Raised ("expected str, bytes or os.PathLike object, not "
              +:+ type_name v)
  end.

(** The argument vector is converted before anything is started, element
    by element in order: the first one refused raises. *)
Fixpoint fsencode_args (args : list pyval) : outcome (list string) :=
  match args with
  | [] => Returned []
  | v :: rest =>
      match fsencode v with
      | Raised e => Raised e
      | Returned s =>
          match fsencode_args rest with
          | Returned argv => Returned (s :: argv)
          | Raised e => Raised e
          end
      end
  end.

Definition run (os : OS) (cmd : list pyval) : M CompletedProcess :=
  match fsencode_args cmd with
  | Raised e => raise e
  | Returned argv => fun h => (os_exec os h argv, h ++ [Exec argv])
  end.

End subprocess.

(** ** The protocol types *)

Module types.

(** A JSON schema as the dict literal writes it, keys in order. *)
Inductive json : Type :=
  | JString (s : string)
  | JInteger (z : Z)
  | JArray (items : list json)
  | JObject (fields : list (string * json)).

Record Tool : Type := {
  name : string;
  description : string;
  inputSchema : json
}.

Record TextContent : Type := {
  type : string;
  text : string
}.

End types.

(** ** The server *)

(** [handle_list_tools]. *)
Definition handle_list_tools : M (list types.Tool) :=
  ret [
    {| types.name := "query_db";
       types.description := "Execute SQL queries on the Intellacc database";
       types.inputSchema := types.JObject [
         ("type", types.JString "object");
         ("properties", types.JObject [
           ("query", types.JObject [
             ("type", types.JString "string");
             ("description", types.JString "SQL query to execute")
           ]);
           ("database", types.JObject [
             ("type", types.JString "string");
             ("description",
               types.JString "Database name (default: intellaccdb)");
             ("default", types.JString "intellaccdb")
           ])
         ]);
         ("required", types.JArray [types.JString "query"])
       ] |};
    {| types.name := "get_project_status";
       types.description :=
         "Get current project status including todo items and recent changes";
       types.inputSchema := types.JObject [
         ("type", types.JString "object");
         ("properties", types.JObject [])
       ] |};
    {| types.name := "analyze_logs";
       types.description :=
         "Analyze application logs for errors or patterns";
       types.inputSchema := types.JObject [
         ("type", types.JString "object");
         ("properties", types.JObject [
           ("service", types.JObject [
             ("type", types.JString "string");
             ("description", types.JString
               "Service to analyze (backend, frontend, prediction-engine, db)");
             ("enum", types.JArray [
               types.JString "backend"; types.JString "frontend";
               types.JString "prediction-engine"; types.JString "db"])
           ]);
           ("lines", types.JObject [
             ("type", types.JString "integer");
             ("description", types.JString "Number of log lines to analyze");
             ("default", types.JInteger 50)
           ])
         ]);
         ("required", types.JArray [types.JString "service"])
       ] |}
  ].

Definition text_content (s : string) : list types.TextContent :=
  [ {| types.type := "text"; types.text := s |} ].

(** The [try] block of the [query_db] branch. *)
Definition query_db_try (os : OS) (query database : pyval)
    : M (list types.TextContent) :=
  let cmd := [
    PStr "docker"; PStr "exec"; PStr "intellacc_db";
    PStr "psql"; PStr "-U"; PStr "intellacc_user"; PStr "-d"; database;
    PStr "-c"; query
  ] in
  result <- subprocess.run os cmd ;;
  if returncode result =? 0 then
    ret (text_content
      ("Query executed successfully:" +:+ nl +:+ nl +:+ stdout result))
  else
    ret (text_content ("Query failed:" +:+ nl +:+ stderr result)).

Definition CLAUDE_md : string :=
  "/home/jayjag/Nextcloud/intellacc.com/CLAUDE.md".

Definition docker_ps_cmd : list pyval := [
  PStr "docker"; PStr "ps"; PStr "--format";
  PStr ("table {{.Names}}" +:+ tab +:+ "{{.Status}}" +:+ tab
        +:+ "{{.Ports}}")
].

(** The [try] block of the [get_project_status] branch. *)
Definition get_project_status_try (os : OS) : M (list types.TextContent) :=
  claude_content <- open_read os CLAUDE_md ;;
  docker_status <- subprocess.run os docker_ps_cmd ;;
  let status_report := "
# Intellacc Project Status

## Docker Containers
" +:+ stdout docker_status +:+ "

## Recent Project Context
Key features implemented:
- LMSR automated market making system
- Kelly optimal betting suggestions with belief probability slider
- Real-time leaderboards showing actual RP balances  
- Database cleanup and optimization
- Enhanced prediction UI with working sliders

## Current Working Directory
/home/jayjag/Nextcloud/intellacc.com

## Key Architecture
- Frontend: VanJS (port 5173)
- Backend: Express.js (port 3000) 
- Database: PostgreSQL (port 5432)
- Prediction Engine: Rust (port 3001)
" in
  ret (text_content status_report).

Definition container_map : gmap string pyval :=
  list_to_map [
    ("backend", PStr "intellacc_backend");
    ("frontend", PStr "intellacc_frontend");
    ("prediction-engine", PStr "intellacc_prediction_engine");
    ("db", PStr "intellacc_db")
  ].

(** The [try] block of the [analyze_logs] branch.  The fields of the
    f-strings are printed from left to right. *)
Definition analyze_logs_try (os : OS) (service lines : pyval)
    : M (list types.TextContent) :=
  let container := dict_get container_map service PNone in
  if negb (truthy container) then
    service_text <- str service ;;
    ret (text_content ("Unknown service: " +:+ service_text))
  else
    tail <- str lines ;;
    result <- subprocess.run os
      [PStr "docker"; PStr "logs"; PStr "--tail"; PStr tail; container] ;;
    service_text <- str service ;;
    lines_text <- str lines ;;
    container_text <- str container ;;
    lines_analyzed <- str lines ;;
    let analysis := "
# Log Analysis for " +:+ service_text +:+ "

## Recent Logs (" +:+ lines_text +:+ " lines)
" +:+ stdout result +:+ "

## Error Output
" +:+ (if negb (String.eqb (stderr result) "") then stderr result
       else "No errors") +:+ "

## Analysis
- Container: " +:+ container_text +:+ "
- Lines analyzed: " +:+ lines_analyzed +:+ "
- Status: " +:+ (if returncode result =? 0 then "Healthy"
                 else "Issues detected") +:+ "
" in
    ret (text_content analysis).

(** [handle_call_tool]. *)
Definition handle_call_tool (os : OS) (name : string)
    (arguments : gmap string pyval) : M (list types.TextContent) :=
  if String.eqb name "query_db" then
    let query := dict_get arguments (PStr "query") PNone in
    let database :=
      dict_get arguments (PStr "database") (PStr "intellaccdb") in
    try_except (query_db_try os query database)
      (fun e => ret (text_content ("Error executing query: " +:+ e)))
  else if String.eqb name "get_project_status" then
    try_except (get_project_status_try os)
      (fun e => ret (text_content ("Error getting project status: " +:+ e)))
  else if String.eqb name "analyze_logs" then
    let service := dict_get arguments (PStr "service") PNone in
    let lines := dict_get arguments (PStr "lines") (PInt 50) in
    try_except (analyze_logs_try os service lines)
      (fun e => ret (text_content ("Error analyzing logs: " +:+ e)))
  else
    ret (text_content ("Unknown tool: " +:+ name)).

(** A session: tool calls handled one after the other. *)
Fixpoint dispatch_all (os : OS) (calls : list (string * gmap string pyval))
    : M (list (list types.TextContent)) :=
  match calls with
  | [] => ret []
  | (name, arguments) :: rest =>
      r <- handle_call_tool os name arguments ;;
      rs <- dispatch_all os rest ;;
      ret (r :: rs)
  end.

(** A run that returns, returns one block of text. *)
Definition one_text (r : outcome (list types.TextContent) * list syscall)
    : Prop :=
  match r with
  | (Returned l, _) => exists text, l = text_content text
  | (Raised _, _) => True
  end.

(** ** Reading the registry *)

(** The descriptors [handle_list_tools] returns. *)
Definition registry : list types.Tool :=
  match fst (handle_list_tools []) with
  | Returned tools => tools
  | Raised _ => []
  end.

(** [j[key]] on a JSON object. *)
Definition json_get (key : string) (j : types.json) : option types.json :=
  match j with
  | types.JObject fields =>
      snd <$> List.find (fun field => String.eqb (fst field) key) fields
  | _ => None
  end.

(** [j[k1][k2]...]. *)
Fixpoint json_path (path : list string) (j : types.json)
    : option types.json :=
  match path with
  | [] => Some j
  | key :: rest =>
      match json_get key j with
      | Some j' => json_path rest j'
      | None => None
      end
  end.

(** What the input schema of [tool] says at [path], if anything. *)
Definition advertised (tool : string) (path : list string)
    : option types.json :=
  match List.find (fun t => String.eqb (types.name t) tool) registry with
  | Some t => json_path path (types.inputSchema t)
  | None => None
  end.

Definition json_items (j : option types.json) : list types.json :=
  match j with
  | Some (types.JArray items) => items
  | _ => []
  end.

Definition json_keys (j : option types.json) : list string :=
  match j with
  | Some (types.JObject fields) => fst <$> fields
  | _ => []
  end.

(** A JSON scalar of a schema as the Python value it stands for. *)
Definition json_value (j : option types.json) : option pyval :=
  match j with
  | Some (types.JString s) => Some (PStr s)
  | Some (types.JInteger z) => Some (PInt z)
  | _ => None
  end.

(** ** Environments to run the server in *)

(** Every command exits with [rc], printing [out] and [err]; the file
    holds [doc]. *)
Definition steady_os (rc : Z) (out err doc : string) : OS := {|
  os_exec := fun _ _ =>
    Returned {| returncode := rc; stdout := out; stderr := err |};
  os_open_read := fun _ _ => Returned doc
|}.

(** Nothing can be started and nothing can be read. *)
Definition broken_os : OS := {|
  os_exec := fun _ _ =>
    Raised "[Errno 2] No such file or directory: 'docker'";
  os_open_read := fun _ path =>
    Raised ("[Errno 2] No such file or directory: '" +:+ path +:+ "'")
|}.

Example py_str_ints :
  py_str (PInt 50) = Returned "50" /\ py_str (PInt 0) = Returned "0" /\
  py_str (PInt (-5)) = Returned "-5".
Proof. repeat split. Qed.

Example run_logs_nul :
  handle_call_tool (steady_os 0 "started" "" "") "analyze_logs"
      {[ "service" := PStr "backend";
         "lines" := PStr (String "000"%char "10") ]} [] =
    (Returned (text_content "Error analyzing logs: embedded null byte"),
     []).
Proof. vm_compute. reflexivity. Qed.

Example run_query_nul :
  handle_call_tool (steady_os 0 "rows: 3" "" "") "query_db"
      {[ "query" := PStr (String "000"%char "select 1") ]} [] =
    (Returned (text_content "Error executing query: embedded null byte"),
     []).
Proof. vm_compute. reflexivity. Qed.

Example advertised_query_db_required :
  json_items (advertised "query_db" ["required"]) = [types.JString "query"].
Proof. reflexivity. Qed.

Example advertised_lines_default :
  json_value (advertised "analyze_logs" ["properties"; "lines"; "default"]) =
    Some (PInt 50).
Proof. reflexivity. Qed.

Example run_unknown_tool :
  handle_call_tool broken_os "drop_db" ∅ [] =
    (Returned (text_content "Unknown tool: drop_db"), []).
Proof. reflexivity. Qed.

Example run_query_ok :
  handle_call_tool (steady_os 0 "rows: 3" "" "") "query_db"
      {[ "query" := PStr "select 1" ]} [] =
    (Returned (text_content
       ("Query executed successfully:" +:+ nl +:+ nl +:+ "rows: 3")),
     [Exec ["docker"; "exec"; "intellacc_db"; "psql"; "-U";
            "intellacc_user"; "-d"; "intellaccdb"; "-c"; "select 1"]]).
Proof. vm_compute. reflexivity. Qed.

Example run_query_absent :
  handle_call_tool (steady_os 0 "rows: 3" "" "") "query_db" ∅ [] =
    (Returned (text_content
       "Error executing query: expected str, bytes or os.PathLike object, not NoneType"),
     []).
Proof. vm_compute. reflexivity. Qed.

Example run_logs_backend_10 :
  snd (handle_call_tool (steady_os 0 "" "" "") "analyze_logs"
         {[ "service" := PStr "backend"; "lines" := PInt 10 ]} []) =
    [Exec ["docker"; "logs"; "--tail"; "10"; "intellacc_backend"]].
Proof. vm_compute. reflexivity. Qed.

Example run_logs_text :
  fst (handle_call_tool (steady_os 1 "out" "" "") "analyze_logs"
         {[ "service" := PStr "db" ]} []) =
    Returned (text_content
      (nl +:+ "# Log Analysis for db" +:+ nl +:+ nl
       +:+ "## Recent Logs (50 lines)" +:+ nl +:+ "out" +:+ nl +:+ nl
       +:+ "## Error Output" +:+ nl +:+ "No errors" +:+ nl +:+ nl
       +:+ "## Analysis" +:+ nl +:+ "- Container: intellacc_db" +:+ nl
       +:+ "- Lines analyzed: 50" +:+ nl
       +:+ "- Status: Issues detected" +:+ nl)).
Proof. vm_compute. reflexivity. Qed.

(** * Properties *)

(** Settle a closed decidable statement by evaluating its decision. *)
Ltac by_decide :=
  match goal with
  | |- ?P => apply (bool_decide_eq_true_1 P); vm_compute; reflexivity
  end.

(** ** Strings *)

Section Strings.

Implicit Types s t u : string.


Lemma string_app_cons a s t : String a s +:+ t = String a (s +:+ t).
Proof. reflexivity. Qed.

Lemma string_app_assoc s t u : (s +:+ t) +:+ u = s +:+ (t +:+ u).
Proof.
  induction s as [|a s IH]; [reflexivity|].
  rewrite !string_app_cons. by rewrite IH.
Qed.


Lemma contains_intro pre needle post : contains needle (pre +:+ needle +:+ post).
Proof. by exists pre, post. Qed.

Lemma contains_app_l needle s t : contains needle t -> contains needle (s +:+ t).
Proof.
  intros (pre & post & ->). exists (s +:+ pre), post.
  by rewrite string_app_assoc.
Qed.

Lemma contains_prefix needle post : contains needle (needle +:+ post).
Proof. by exists "", post. Qed.

Lemma endswith_refl s : endswith s s = true.
Proof. destruct s; cbn [endswith]; by rewrite String.eqb_refl. Qed.

Lemma endswith_longer s t :
  (String.length s < String.length t)%nat -> endswith s t = false.
Proof.
  induction s as [|a s IH]; intros Hlen; cbn [endswith].
  - destruct t; [simpl in Hlen; lia|reflexivity].
  - simpl in Hlen. rewrite IH by lia. rewrite orb_false_r.
    apply String.eqb_neq. intros <-. simpl in Hlen. lia.
Qed.





End Strings.

(** ** The branches of the dispatcher *)

Section Dispatch.

Variable os : OS.
Implicit Types (name : string) (arguments : gmap string pyval).
Implicit Types (h : list syscall).

Lemma handle_query_db arguments :
  handle_call_tool os "query_db" arguments =
    try_except
      (query_db_try os (dict_get arguments (PStr "query") PNone)
         (dict_get arguments (PStr "database") (PStr "intellaccdb")))
      (fun e => ret (text_content ("Error executing query: " +:+ e))).
Proof. reflexivity. Qed.

Lemma handle_get_project_status arguments :
  handle_call_tool os "get_project_status" arguments =
    try_except (get_project_status_try os)
      (fun e =>
         ret (text_content ("Error getting project status: " +:+ e))).
Proof. reflexivity. Qed.

Lemma handle_analyze_logs arguments :
  handle_call_tool os "analyze_logs" arguments =
    try_except
      (analyze_logs_try os (dict_get arguments (PStr "service") PNone)
         (dict_get arguments (PStr "lines") (PInt 50)))
      (fun e => ret (text_content ("Error analyzing logs: " +:+ e))).
Proof. reflexivity. Qed.

Lemma handle_unknown name arguments :
  name <> "query_db" -> name <> "get_project_status" ->
  name <> "analyze_logs" ->
  handle_call_tool os name arguments =
    ret (text_content ("Unknown tool: " +:+ name)).
Proof.
  intros H1 H2 H3. unfold handle_call_tool.
  apply String.eqb_neq in H1, H2, H3. by rewrite H1, H2, H3.
Qed.

(** *** Reading the arguments *)

Lemma dict_get_present (d : gmap string pyval) (k : string) v dflt :
  d !! k = Some v -> dict_get d (PStr k) dflt = v.
Proof. unfold dict_get. by intros ->. Qed.

Lemma dict_get_absent (d : gmap string pyval) (k : string) dflt :
  d !! k = None -> dict_get d (PStr k) dflt = dflt.
Proof. unfold dict_get. by intros ->. Qed.

Lemma dict_get_insert_ne (d : gmap string pyval) (k k' : string) v dflt :
  k <> k' ->
  dict_get (<[k:=v]> d) (PStr k') dflt = dict_get d (PStr k') dflt.
Proof. intros Hne. unfold dict_get. by rewrite lookup_insert_ne. Qed.

(** *** Running a command line *)

Lemma fsencode_string (s : string) :
  has_nul s = false -> subprocess.fsencode (PStr s) = Returned s.
Proof. cbn [subprocess.fsencode]. by intros ->. Qed.

Lemma fsencode_nul (s : string) :
  has_nul s = true ->
  subprocess.fsencode (PStr s) = Raised "embedded null byte".
Proof. cbn [subprocess.fsencode]. by intros ->. Qed.

Lemma fsencode_returned (v : pyval) (s : string) :
  subprocess.fsencode v = Returned s -> v = PStr s /\ has_nul s = false.
Proof.
  destruct v as [| | |s']; try discriminate. cbn [subprocess.fsencode].
  destruct (has_nul s') eqn:Hnul; [discriminate|]. by intros [= <-].
Qed.

Lemma fsencode_args_step (v : pyval) s (rest : list pyval) argv :
  subprocess.fsencode v = Returned s ->
  subprocess.fsencode_args rest = Returned argv ->
  subprocess.fsencode_args (v :: rest) = Returned (s :: argv).
Proof. cbn [subprocess.fsencode_args]. by intros -> ->. Qed.

Lemma fsencode_args_refused (v : pyval) (rest : list pyval) e :
  subprocess.fsencode v = Raised e ->
  subprocess.fsencode_args (v :: rest) = Raised e.
Proof. cbn [subprocess.fsencode_args]. by intros ->. Qed.

Lemma fsencode_args_after (v : pyval) s (rest : list pyval) e :
  subprocess.fsencode v = Returned s ->
  subprocess.fsencode_args rest = Raised e ->
  subprocess.fsencode_args (v :: rest) = Raised e.
Proof. cbn [subprocess.fsencode_args]. by intros -> ->. Qed.

(** No process without a well-typed argument vector, one otherwise. *)
Lemma subprocess_run_cases (cmd : list pyval) h :
  (exists e, subprocess.fsencode_args cmd = Raised e /\
             subprocess.run os cmd h = (Raised e, h)) \/
  (exists argv, subprocess.fsencode_args cmd = Returned argv /\
                subprocess.run os cmd h =
                  (os_exec os h argv, h ++ [Exec argv])).
Proof.
  unfold subprocess.run.
  destruct (subprocess.fsencode_args cmd) as [argv|e]; eauto.
Qed.

Lemma subprocess_run_returned (cmd : list pyval) argv h :
  subprocess.fsencode_args cmd = Returned argv ->
  subprocess.run os cmd h = (os_exec os h argv, h ++ [Exec argv]).
Proof. unfold subprocess.run. by intros ->. Qed.

Lemma subprocess_run_raised (cmd : list pyval) e h :
  subprocess.fsencode_args cmd = Raised e ->
  subprocess.run os cmd h = (Raised e, h).
Proof. unfold subprocess.run. by intros ->. Qed.

Lemma history_grows (x : syscall) h : h <> h ++ [x].
Proof.
  intros Heq. rewrite <- (app_nil_r h) in Heq at 1.
  by apply app_inv_head in Heq.
Qed.

(** *** The guarded blocks answer with one block of text *)

Lemma query_db_try_one_text query database h :
  one_text (query_db_try os query database h).
Proof.
  unfold query_db_try, bind.
  destruct (subprocess.run os _ h) as [[result|e] h']; [|exact I].
  destruct (returncode result =? 0); cbn; eauto.
Qed.

Lemma get_project_status_try_one_text h :
  one_text (get_project_status_try os h).
Proof.
  unfold get_project_status_try, bind.
  destruct (open_read os CLAUDE_md h) as [[doc|e] h']; [|exact I].
  destruct (subprocess.run os _ h') as [[result|e] h'']; [|exact I].
  cbn; eauto.
Qed.

Lemma analyze_logs_try_one_text service lines h :
  one_text (analyze_logs_try os service lines h).
Proof.
  unfold analyze_logs_try, bind, str.
  destruct (negb (truthy _)).
  - destruct (py_str service); cbn; eauto.
  - destruct (py_str lines); [|exact I].
    destruct (subprocess.run os _ h) as [[result|e] h']; [|exact I].
    destruct (py_str service); [|exact I].
    destruct (py_str (dict_get container_map service PNone)); [|exact I].
    cbn; eauto.
Qed.

Lemma try_except_one_text (body : M (list types.TextContent)) prefix h :
  one_text (body h) ->
  exists text,
    fst (try_except body
           (fun e => ret (text_content (prefix +:+ e))) h) =
      Returned (text_content text).
Proof.
  unfold try_except, one_text.
  destruct (body h) as [[l|e] h']; cbn; [|eauto].
  intros [text ->]; eauto.
Qed.

Lemma try_except_raised {A} (body : M A) handler h e h' :
  body h = (Raised e, h') -> try_except body handler h = handler e h'.
Proof. unfold try_except. by intros ->. Qed.

Lemma handle_call_tool_returns name arguments h :
  exists text,
    fst (handle_call_tool os name arguments h) =
      Returned (text_content text).
Proof.
  unfold handle_call_tool.
  destruct (String.eqb name "query_db");
    [apply try_except_one_text, query_db_try_one_text|].
  destruct (String.eqb name "get_project_status");
    [apply try_except_one_text, get_project_status_try_one_text|].
  destruct (String.eqb name "analyze_logs");
    [apply try_except_one_text, analyze_logs_try_one_text|].
  cbn; eauto.
Qed.

(** *** The service table *)

Lemma container_map_unknown (s : string) :
  s <> "backend" -> s <> "frontend" -> s <> "prediction-engine" ->
  s <> "db" -> container_map !! s = None.
Proof.
  intros. unfold container_map. cbn [list_to_map foldr uncurry].
  rewrite !lookup_insert_ne by done. apply lookup_empty.
Qed.

Lemma analyze_logs_try_unknown service lines h :
  service ∉ [PStr "backend"; PStr "frontend"; PStr "prediction-engine";
             PStr "db"] ->
  analyze_logs_try os service lines h =
    (match py_str service with
     | Returned s => Returned (text_content ("Unknown service: " +:+ s))
     | Raised e => Raised e
     end, h).
Proof.
  intros Hout. unfold analyze_logs_try.
  assert (dict_get container_map service PNone = PNone) as ->;
    [|unfold bind, str; cbn [truthy negb]; by destruct (py_str service)].
  destruct service as [| | |s]; try reflexivity.
  unfold dict_get. rewrite container_map_unknown; [reflexivity|..];
    intros ->; apply Hout; set_solver.
Qed.

End Dispatch.

(** Convert an argument vector whose strings are literals, or known to
    hold no NUL. *)
Ltac encode_argv :=
  repeat (eapply fsencode_args_step;
          [ first [ reflexivity | eassumption
                  | apply fsencode_string; eassumption ] | ]);
  reflexivity.

(** ** The dispatcher never raises *)

(** C1.  For every tool name and every argument mapping the dispatcher
    returns exactly one block of text and never raises; and whatever fault
    the guarded block of [query_db], [get_project_status] or [analyze_logs]
    raises is caught and turned into the text ["Error ...: "] followed by
    the fault's description. *)
Theorem dispatch_never_raises (os : OS) (name : string)
    (arguments : gmap string pyval) (h : list syscall) :
  (exists text,
     fst (handle_call_tool os name arguments h) =
       Returned (text_content text)) /\
  (forall e h',
     query_db_try os (dict_get arguments (PStr "query") PNone)
       (dict_get arguments (PStr "database") (PStr "intellaccdb")) h =
       (Raised e, h') ->
     handle_call_tool os "query_db" arguments h =
       (Returned (text_content ("Error executing query: " +:+ e)), h')) /\
  (forall e h',
     get_project_status_try os h = (Raised e, h') ->
     handle_call_tool os "get_project_status" arguments h =
       (Returned (text_content ("Error getting project status: " +:+ e)),
        h')) /\
  (forall e h',
     analyze_logs_try os (dict_get arguments (PStr "service") PNone)
       (dict_get arguments (PStr "lines") (PInt 50)) h = (Raised e, h') ->
     handle_call_tool os "analyze_logs" arguments h =
       (Returned (text_content ("Error analyzing logs: " +:+ e)), h')).
Proof.
  split; [apply handle_call_tool_returns|].
  repeat split; intros e h' Hraised.
  - rewrite handle_query_db. by rewrite (try_except_raised _ _ _ _ _ Hraised).
  - rewrite handle_get_project_status.
    by rewrite (try_except_raised _ _ _ _ _ Hraised).
  - rewrite handle_analyze_logs.
    by rewrite (try_except_raised _ _ _ _ _ Hraised).
Qed.

(** With no [docker] on the machine, the fault of starting it is the text
    the caller gets. *)
Lemma dispatch_never_raises_witness :
  handle_call_tool broken_os "query_db" {[ "query" := PStr "select 1" ]} [] =
    (Returned (text_content
       "Error executing query: [Errno 2] No such file or directory: 'docker'"),
     [Exec ["docker"; "exec"; "intellacc_db"; "psql"; "-U";
            "intellacc_user"; "-d"; "intellaccdb"; "-c"; "select 1"]]).
Proof.
  apply (proj1 (proj2 (dispatch_never_raises broken_os "query_db"
                         {[ "query" := PStr "select 1" ]} []))).
  vm_compute. reflexivity.
Defined.

(** X2.  When the project document cannot be read, [get_project_status]
    answers with that fault as an error text and stops there: the read is
    the only external call, [docker ps] is not started. *)
Lemma status_document_unreadable (os : OS) arguments h e :
  os_open_read os h CLAUDE_md = Raised e ->
  handle_call_tool os "get_project_status" arguments h =
    (Returned (text_content ("Error getting project status: " +:+ e)),
     h ++ [OpenRead CLAUDE_md]).
Proof.
  intros Hread. rewrite handle_get_project_status.
  unfold try_except, get_project_status_try, bind, open_read.
  by rewrite Hread.
Qed.

(** When the [psql] command cannot be run, the fault is the text. *)
Lemma query_command_not_started (os : OS) arguments h q db e :
  arguments !! "query" = Some (PStr q) ->
  default (PStr "intellaccdb") (arguments !! "database") = PStr db ->
  has_nul q = false -> has_nul db = false ->
  os_exec os h ["docker"; "exec"; "intellacc_db"; "psql"; "-U";
                "intellacc_user"; "-d"; db; "-c"; q] = Raised e ->
  handle_call_tool os "query_db" arguments h =
    (Returned (text_content ("Error executing query: " +:+ e)),
     h ++ [Exec ["docker"; "exec"; "intellacc_db"; "psql"; "-U";
                 "intellacc_user"; "-d"; db; "-c"; q]]).
Proof.
  intros Hq Hdb Hqnul Hdbnul Hexec. rewrite handle_query_db.
  rewrite (dict_get_present _ _ _ _ Hq). unfold dict_get. rewrite Hdb.
  unfold try_except, query_db_try, bind. cbv zeta.
  erewrite subprocess_run_returned by encode_argv.
  by rewrite Hexec.
Qed.

(** ** Unknown tools and unknown services *)

(** C2.  For every tool name other than [query_db], [get_project_status]
    and [analyze_logs], the dispatcher answers ["Unknown tool: "] followed
    by the name, a text that contains ["Unknown tool:"], and reaches
    nothing outside: the history of external calls is the one it started
    from. *)
Theorem unknown_tool (os : OS) (name : string)
    (arguments : gmap string pyval) (h : list syscall) :
  name ∉ ["query_db"; "get_project_status"; "analyze_logs"] ->
  handle_call_tool os name arguments h =
    (Returned (text_content ("Unknown tool: " +:+ name)), h) /\
  contains "Unknown tool:" ("Unknown tool: " +:+ name).
Proof.
  intros Hname. split.
  - rewrite handle_unknown; [reflexivity|..];
      intros ->; apply Hname; set_solver.
  - exists "", (" " +:+ name). reflexivity.
Qed.

Lemma unknown_tool_witness :
  handle_call_tool broken_os "drop_db" {[ "query" := PStr "x" ]}
      [OpenRead "/etc/hosts"] =
    (Returned (text_content "Unknown tool: drop_db"),
     [OpenRead "/etc/hosts"]) /\
  contains "Unknown tool:" "Unknown tool: drop_db".
Proof.
  apply (unknown_tool broken_os "drop_db" {[ "query" := PStr "x" ]}
           [OpenRead "/etc/hosts"]).
  by_decide.
Defined.

(** What [str] prints, and what it refuses. *)
Lemma bits_below_limit : 2 ^ (3 * 4300) <= 10 ^ 4300.
Proof.
  rewrite (Z.pow_mul_r 2 3 4300) by (apply Z.leb_le; reflexivity).
  apply Z.pow_le_mono_l. change (2 ^ 3) with 8. lia.
Qed.

Lemma small_below_limit (a : Z) :
  0 <= a -> Z.log2 a < 3 * 4300 -> a < 10 ^ 4300.
Proof.
  intros Ha Hlog. apply Z.lt_le_trans with (2 ^ (3 * 4300));
    [|apply bits_below_limit].
  destruct (Z.eq_dec a 0) as [->|Hne].
  - apply Z.pow_pos_nonneg; [reflexivity|discriminate].
  - apply Z.log2_lt_pow2; [|exact Hlog].
    clear Hlog. lia.
Qed.

Lemma py_str_int (z : Z) :
  py_str (PInt z) =
    if Z.abs z <? 10 ^ 4300
    then Returned (NilZero.string_of_int (Z.to_int z))
    else Raised "Exceeds the limit (4300 digits) for integer string conversion; use sys.set_int_max_str_digits() to increase the limit".
Proof.
  cbn [py_str]. change max_str_digits with 4300.
  destruct (Z.ltb_spec (Z.log2 (Z.abs z)) (3 * 4300)) as [Hlog|_];
    [|reflexivity].
  apply small_below_limit in Hlog; [|apply Z.abs_nonneg].
  apply Z.ltb_lt in Hlog. by rewrite Hlog.
Qed.

Lemma py_str_printable (v : pyval) :
  (forall z, v = PInt z -> Z.abs z < 10 ^ 4300) ->
  exists printed, py_str v = Returned printed.
Proof.
  intros Hsmall. destruct v as [|[]|z|s]; try (cbn [py_str]; by eauto).
  rewrite py_str_int. specialize (Hsmall z eq_refl).
  apply Z.ltb_lt in Hsmall. rewrite Hsmall. eauto.
Qed.

Lemma py_str_unprintable (z : Z) :
  10 ^ 4300 <= Z.abs z ->
  py_str (PInt z) =
    Raised "Exceeds the limit (4300 digits) for integer string conversion; use sys.set_int_max_str_digits() to increase the limit".
Proof.
  intros Hbig. rewrite py_str_int.
  apply Z.ltb_ge in Hbig. by rewrite Hbig.
Qed.

(** The first integer that is not printed. *)
Lemma limit_reached : 10 ^ 4300 <= Z.abs (10 ^ 4300).
Proof.
  rewrite Z.abs_eq; [reflexivity|]. apply Z.pow_nonneg. lia.
Qed.

(** C3, as the code has it.  For every call of [analyze_logs] whose
    [service] argument is not one of [backend], [frontend],
    [prediction-engine], [db], no process is started: the history is
    unchanged.  When [str] can print the service (anything but an integer
    of more than 4300 digits) the text is exactly ["Unknown service: "]
    followed by the service as printed; for an integer beyond that limit
    the f-string raises and the text is the fault, after
    ["Error analyzing logs: "]. *)
Theorem unknown_service (os : OS) (arguments : gmap string pyval)
    (h : list syscall) (service : pyval) :
  arguments !! "service" = Some service ->
  service ∉ [PStr "backend"; PStr "frontend"; PStr "prediction-engine";
             PStr "db"] ->
  snd (handle_call_tool os "analyze_logs" arguments h) = h /\
  ((forall z, service = PInt z -> Z.abs z < 10 ^ 4300) ->
   exists printed,
     py_str service = Returned printed /\
     fst (handle_call_tool os "analyze_logs" arguments h) =
       Returned (text_content ("Unknown service: " +:+ printed))) /\
  (forall z,
     service = PInt z -> 10 ^ 4300 <= Z.abs z ->
     fst (handle_call_tool os "analyze_logs" arguments h) =
       Returned (text_content
         ("Error analyzing logs: "
          +:+ "Exceeds the limit (4300 digits) for integer string conversion; use sys.set_int_max_str_digits() to increase the limit"))).
Proof.
  intros Hservice Hout. rewrite handle_analyze_logs.
  rewrite (dict_get_present _ _ _ _ Hservice).
  unfold try_except. rewrite analyze_logs_try_unknown by done.
  repeat apply conj.
  - by destruct (py_str service).
  - intros [printed Hprinted]%py_str_printable. exists printed.
    by rewrite Hprinted.
  - intros z -> Hbig. by rewrite py_str_unprintable.
Qed.

Lemma unknown_service_witness :
  exists printed,
    py_str (PStr "Backend") = Returned printed /\
    fst (handle_call_tool (steady_os 0 "log" "" "") "analyze_logs"
           {[ "service" := PStr "Backend"; "lines" := PInt 10 ]} []) =
      Returned (text_content ("Unknown service: " +:+ printed)).
Proof.
  refine (proj1 (proj2 (unknown_service (steady_os 0 "log" "" "")
            {[ "service" := PStr "Backend"; "lines" := PInt 10 ]} []
            (PStr "Backend") _ _)) _).
  - vm_compute. reflexivity.
  - by_decide.
  - discriminate.
Defined.

(** C3, as the claim has it, fails: an integer of 4301 digits is outside
    the table, and the text is not ["Unknown service: "] followed by
    anything: the f-string that would print it raises. *)
Lemma unknown_service_unprintable :
  handle_call_tool (steady_os 0 "log" "" "") "analyze_logs"
      {[ "service" := PInt (10 ^ 4300) ]} [] =
    (Returned (text_content
       "Error analyzing logs: Exceeds the limit (4300 digits) for integer string conversion; use sys.set_int_max_str_digits() to increase the limit"),
     []) /\
  ~ (exists printed,
       fst (handle_call_tool (steady_os 0 "log" "" "") "analyze_logs"
              {[ "service" := PInt (10 ^ 4300) ]} []) =
         Returned (text_content ("Unknown service: " +:+ printed))).
Proof.
  assert (forall big,
            10 ^ 4300 <= Z.abs big ->
            handle_call_tool (steady_os 0 "log" "" "") "analyze_logs"
              {[ "service" := PInt big ]} [] =
            (Returned (text_content
               "Error analyzing logs: Exceeds the limit (4300 digits) for integer string conversion; use sys.set_int_max_str_digits() to increase the limit"),
             [])) as Hrun.
  { intros big Hbig. rewrite handle_analyze_logs.
    rewrite (dict_get_present _ "service" (PInt big))
      by apply lookup_singleton_eq.
    unfold try_except.
    rewrite analyze_logs_try_unknown
      by (rewrite !not_elem_of_cons;
          repeat split; (discriminate || apply not_elem_of_nil)).
    by rewrite (py_str_unprintable big Hbig). }
  specialize (Hrun (10 ^ 4300) limit_reached).
  split; [exact Hrun|]. rewrite Hrun. intros [printed Habs].
  discriminate Habs.
Qed.

(** C10.  For every call of [analyze_logs] whose arguments have no
    [service] key, the text is exactly ["Unknown service: None"] and no
    process is started. *)
Theorem missing_service (os : OS) (arguments : gmap string pyval)
    (h : list syscall) :
  arguments !! "service" = None ->
  handle_call_tool os "analyze_logs" arguments h =
    (Returned (text_content "Unknown service: None"), h).
Proof.
  intros Hservice. rewrite handle_analyze_logs.
  by rewrite (dict_get_absent _ _ _ Hservice).
Qed.

Lemma missing_service_witness :
  handle_call_tool (steady_os 0 "log" "" "") "analyze_logs"
      {[ "lines" := PInt 10 ]} [] =
    (Returned (text_content "Unknown service: None"), []).
Proof.
  apply (missing_service (steady_os 0 "log" "" "")
           {[ "lines" := PInt 10 ]} []).
  vm_compute. reflexivity.
Defined.

(** ** [query_db] *)

(** C4.  For every call of [query_db] whose command ran to its end
    (the call started the process [argv] and the environment completed it
    with [result]): when the exit status is zero the text is
    ["Query executed successfully:\n\n"] followed by the standard output,
    and when it is not zero the text is ["Query failed:\n"] followed by the
    standard error. *)
Theorem query_db_completed (os : OS) (arguments : gmap string pyval)
    (h : list syscall) (argv : list string) (result : CompletedProcess) :
  snd (handle_call_tool os "query_db" arguments h) = h ++ [Exec argv] ->
  os_exec os h argv = Returned result ->
  (returncode result = 0 ->
   fst (handle_call_tool os "query_db" arguments h) =
     Returned (text_content
       ("Query executed successfully:" +:+ nl +:+ nl +:+ stdout result))) /\
  (returncode result <> 0 ->
   fst (handle_call_tool os "query_db" arguments h) =
     Returned (text_content ("Query failed:" +:+ nl +:+ stderr result))).
Proof.
  rewrite handle_query_db. unfold try_except, query_db_try, bind. cbv zeta.
  intros Hhistory Hexec.
  destruct (subprocess_run_cases os
    [PStr "docker"; PStr "exec"; PStr "intellacc_db"; PStr "psql";
     PStr "-U"; PStr "intellacc_user"; PStr "-d";
     dict_get arguments (PStr "database") (PStr "intellaccdb");
     PStr "-c"; dict_get arguments (PStr "query") PNone] h)
    as [(e & _ & Hrun)|(argv' & _ & Hrun)];
    rewrite Hrun in Hhistory |- *.
  - cbn in Hhistory. by apply history_grows in Hhistory.
  - assert (argv' = argv) as ->.
    { destruct (os_exec os h argv') as [r|e];
        [destruct (returncode r =? 0)|]; cbn in Hhistory;
        apply app_inv_head in Hhistory; congruence. }
    rewrite Hexec. split; intros Hrc.
    + by rewrite Hrc.
    + apply Z.eqb_neq in Hrc. by rewrite Hrc.
Qed.

Lemma query_db_completed_witness :
  fst (handle_call_tool (steady_os 1 "" "syntax error" "") "query_db"
         {[ "query" := PStr "selec 1" ]} []) =
    Returned (text_content ("Query failed:" +:+ nl +:+ "syntax error")).
Proof.
  refine (proj2 (query_db_completed (steady_os 1 "" "syntax error" "")
            {[ "query" := PStr "selec 1" ]} []
            ["docker"; "exec"; "intellacc_db"; "psql"; "-U";
             "intellacc_user"; "-d"; "intellaccdb"; "-c"; "selec 1"]
            {| returncode := 1; stdout := ""; stderr := "syntax error" |}
            _ _) _).
  - vm_compute. reflexivity.
  - reflexivity.
  - discriminate.
Defined.

(** For string arguments without NUL the command line is fixed up to the
    database and the query, which are passed as they come. *)
Lemma query_db_command (os : OS) arguments h q db :
  arguments !! "query" = Some (PStr q) ->
  default (PStr "intellaccdb") (arguments !! "database") = PStr db ->
  has_nul q = false -> has_nul db = false ->
  snd (handle_call_tool os "query_db" arguments h) =
    h ++ [Exec ["docker"; "exec"; "intellacc_db"; "psql"; "-U";
                "intellacc_user"; "-d"; db; "-c"; q]].
Proof.
  intros Hq Hdb Hqnul Hdbnul. rewrite handle_query_db.
  rewrite (dict_get_present _ _ _ _ Hq). unfold dict_get. rewrite Hdb.
  unfold try_except, query_db_try, bind. cbv zeta.
  erewrite subprocess_run_returned by encode_argv.
  destruct (os_exec os h _) as [r|e]; [destruct (returncode r =? 0)|];
    reflexivity.
Qed.

(** The three ways a [query_db] call goes: the database is refused, the
    query is refused, or the command is run. *)
Ltac refuse_argv :=
  repeat (eapply fsencode_args_after; [first [reflexivity | eassumption]|]);
  apply fsencode_args_refused; eassumption.

Lemma query_db_refused_database (os : OS) arguments h e :
  subprocess.fsencode
    (default (PStr "intellaccdb") (arguments !! "database")) = Raised e ->
  handle_call_tool os "query_db" arguments h =
    (Returned (text_content ("Error executing query: " +:+ e)), h).
Proof.
  intros Hdatabase. rewrite handle_query_db.
  change (dict_get arguments (PStr "database") (PStr "intellaccdb"))
    with (default (PStr "intellaccdb") (arguments !! "database")).
  unfold try_except, query_db_try, bind. cbv zeta.
  by erewrite subprocess_run_raised by refuse_argv.
Qed.

Lemma query_db_refused_query (os : OS) arguments h db e :
  subprocess.fsencode
    (default (PStr "intellaccdb") (arguments !! "database")) = Returned db ->
  subprocess.fsencode (default PNone (arguments !! "query")) = Raised e ->
  handle_call_tool os "query_db" arguments h =
    (Returned (text_content ("Error executing query: " +:+ e)), h).
Proof.
  intros Hdatabase Hquery. rewrite handle_query_db.
  change (dict_get arguments (PStr "database") (PStr "intellaccdb"))
    with (default (PStr "intellaccdb") (arguments !! "database")).
  change (dict_get arguments (PStr "query") PNone)
    with (default PNone (arguments !! "query")).
  unfold try_except, query_db_try, bind. cbv zeta.
  by erewrite subprocess_run_raised by refuse_argv.
Qed.

Lemma query_db_started (os : OS) arguments h db q :
  subprocess.fsencode
    (default (PStr "intellaccdb") (arguments !! "database")) = Returned db ->
  subprocess.fsencode (default PNone (arguments !! "query")) = Returned q ->
  handle_call_tool os "query_db" arguments h =
    (match os_exec os h ["docker"; "exec"; "intellacc_db"; "psql"; "-U";
                         "intellacc_user"; "-d"; db; "-c"; q] with
     | Returned result =>
         Returned (text_content
           (if returncode result =? 0
            then "Query executed successfully:" +:+ nl +:+ nl
                 +:+ stdout result
            else "Query failed:" +:+ nl +:+ stderr result))
     | Raised e => Returned (text_content ("Error executing query: " +:+ e))
     end,
     h ++ [Exec ["docker"; "exec"; "intellacc_db"; "psql"; "-U";
                 "intellacc_user"; "-d"; db; "-c"; q]]).
Proof.
  intros Hdatabase Hquery. rewrite handle_query_db.
  change (dict_get arguments (PStr "database") (PStr "intellaccdb"))
    with (default (PStr "intellaccdb") (arguments !! "database")).
  change (dict_get arguments (PStr "query") PNone)
    with (default PNone (arguments !! "query")).
  unfold try_except, query_db_try, bind. cbv zeta.
  erewrite subprocess_run_returned by encode_argv.
  destruct (os_exec os h _) as [r|e]; [|reflexivity].
  by destruct (returncode r =? 0).
Qed.

(** ** [analyze_logs] *)

Lemma container_map_known (service container : string) :
  (service, container) ∈
    [("backend", "intellacc_backend"); ("frontend", "intellacc_frontend");
     ("prediction-engine", "intellacc_prediction_engine");
     ("db", "intellacc_db")] ->
  dict_get container_map (PStr service) PNone = PStr container /\
  truthy (PStr container) = true /\
  has_nul container = false.
Proof.
  rewrite !elem_of_cons, elem_of_nil.
  intros [H|[H|[H|[H|[]]]]]; injection H as -> ->; by vm_compute.
Qed.

(** A service of the table and a line count that can be printed and
    passed on: the one command is run, and the report or the fault is the
    text. *)
Lemma analyze_logs_started (os : OS) (arguments : gmap string pyval)
    (h : list syscall) (service container tail : string) :
  (service, container) ∈
    [("backend", "intellacc_backend"); ("frontend", "intellacc_frontend");
     ("prediction-engine", "intellacc_prediction_engine");
     ("db", "intellacc_db")] ->
  arguments !! "service" = Some (PStr service) ->
  py_str (default (PInt 50) (arguments !! "lines")) = Returned tail ->
  has_nul tail = false ->
  handle_call_tool os "analyze_logs" arguments h =
    (match os_exec os h ["docker"; "logs"; "--tail"; tail; container] with
     | Returned result => Returned (text_content ("
# Log Analysis for " +:+ service +:+ "

## Recent Logs (" +:+ tail +:+ " lines)
" +:+ stdout result +:+ "

## Error Output
" +:+ (if negb (String.eqb (stderr result) "") then stderr result
       else "No errors") +:+ "

## Analysis
- Container: " +:+ container +:+ "
- Lines analyzed: " +:+ tail +:+ "
- Status: " +:+ (if returncode result =? 0 then "Healthy"
                 else "Issues detected") +:+ "
"))
     | Raised e => Returned (text_content ("Error analyzing logs: " +:+ e))
     end,
     h ++ [Exec ["docker"; "logs"; "--tail"; tail; container]]).
Proof.
  intros Htable Hservice Hlines Htail.
  destruct (container_map_known _ _ Htable)
    as (Hcontainer & Htruthy & Hnul).
  rewrite handle_analyze_logs, (dict_get_present _ _ _ _ Hservice).
  change (dict_get arguments (PStr "lines") (PInt 50))
    with (default (PInt 50) (arguments !! "lines")).
  unfold try_except, analyze_logs_try, bind, str. cbv zeta.
  rewrite Hcontainer, Htruthy, Hlines. cbn [negb py_str].
  erewrite subprocess_run_returned by encode_argv.
  by destruct (os_exec os h _).
Qed.


(** The needle sits [n] pieces into the text, after the literal [pre]. *)
Tactic Notation "find_after" integer(n) constr(pre) :=
  do n apply contains_app_l; eexists pre, _;
  rewrite ?string_app_assoc; reflexivity.




(** ** Missing arguments *)

(** C6.  A call of a known tool with an argument left out never crashes.
    An omitted [database] is ["intellaccdb"]: the call behaves as if it
    were passed, and the command run for a query that can be passed on has
    [-d intellaccdb].  An omitted [lines] is [50]: the call behaves as if
    it were passed, and the command run for a service of the table has
    [--tail 50].  An omitted [query] or [service] is answered by a text
    that says what went wrong, with nothing started; and every call
    returns one block of text. *)
Theorem missing_argument (os : OS) (arguments : gmap string pyval)
    (h : list syscall) :
  (arguments !! "database" = None ->
   handle_call_tool os "query_db" arguments h =
     handle_call_tool os "query_db"
       (<["database" := PStr "intellaccdb"]> arguments) h) /\
  (arguments !! "database" = None ->
   forall q,
     arguments !! "query" = Some (PStr q) -> has_nul q = false ->
     snd (handle_call_tool os "query_db" arguments h) =
       h ++ [Exec ["docker"; "exec"; "intellacc_db"; "psql"; "-U";
                   "intellacc_user"; "-d"; "intellaccdb"; "-c"; q]]) /\
  (arguments !! "lines" = None ->
   handle_call_tool os "analyze_logs" arguments h =
     handle_call_tool os "analyze_logs"
       (<["lines" := PInt 50]> arguments) h) /\
  (arguments !! "lines" = None ->
   forall service container,
     (service, container) ∈
       [("backend", "intellacc_backend"); ("frontend", "intellacc_frontend");
        ("prediction-engine", "intellacc_prediction_engine");
        ("db", "intellacc_db")] ->
     arguments !! "service" = Some (PStr service) ->
     snd (handle_call_tool os "analyze_logs" arguments h) =
       h ++ [Exec ["docker"; "logs"; "--tail"; "50"; container]]) /\
  (arguments !! "query" = None ->
   exists fault,
     handle_call_tool os "query_db" arguments h =
       (Returned (text_content ("Error executing query: " +:+ fault)), h)) /\
  (arguments !! "service" = None ->
   handle_call_tool os "analyze_logs" arguments h =
     (Returned (text_content "Unknown service: None"), h)) /\
  (forall name, exists text,
     fst (handle_call_tool os name arguments h) =
       Returned (text_content text)).
Proof.
  repeat apply conj.
  - intros Hdb. rewrite !handle_query_db.
    rewrite (dict_get_absent _ _ _ Hdb).
    rewrite (dict_get_present (<["database":=_]> arguments) "database"
               (PStr "intellaccdb")) by apply lookup_insert_eq.
    by rewrite dict_get_insert_ne.
  - intros Hdb q Hq Hnul.
    rewrite (query_db_started os arguments h "intellaccdb" q).
    + reflexivity.
    + by rewrite Hdb.
    + rewrite Hq. by apply fsencode_string.
  - intros Hlines. rewrite !handle_analyze_logs.
    rewrite (dict_get_absent _ _ _ Hlines).
    rewrite (dict_get_present (<["lines":=_]> arguments) "lines" (PInt 50))
      by apply lookup_insert_eq.
    by rewrite dict_get_insert_ne.
  - intros Hlines service container Htable Hservice.
    rewrite (analyze_logs_started os arguments h service container "50");
      [reflexivity|done..|by rewrite Hlines|done].
  - intros Hquery.
    destruct (subprocess.fsencode
                (default (PStr "intellaccdb") (arguments !! "database")))
      as [db|e] eqn:Hdatabase.
    + eexists. apply (query_db_refused_query os arguments h db);
        [done|by rewrite Hquery].
    + exists e. by apply query_db_refused_database.
  - intros Hservice. rewrite handle_analyze_logs.
    by rewrite (dict_get_absent _ _ _ Hservice).
  - intros name. apply handle_call_tool_returns.
Qed.

(** With no [database], the command has [-d intellaccdb]. *)
Lemma missing_argument_witness :
  snd (handle_call_tool (steady_os 0 "rows: 3" "" "") "query_db"
         {[ "query" := PStr "select 1" ]} []) =
    [Exec ["docker"; "exec"; "intellacc_db"; "psql"; "-U";
           "intellacc_user"; "-d"; "intellaccdb"; "-c"; "select 1"]].
Proof.
  refine (proj1 (proj2 (missing_argument (steady_os 0 "rows: 3" "" "")
            {[ "query" := PStr "select 1" ]} [])) _ "select 1" _ _).
  - vm_compute. reflexivity.
  - vm_compute. reflexivity.
  - reflexivity.
Defined.




(** ** [get_project_status] *)

(** C8.  For every call of [get_project_status] in which the project
    document is read, the report does not depend on what the document
    says: there are two fixed blocks of text such that, whatever the
    document holds, the report is these blocks around the standard output
    of [docker ps]; and two runs that read different texts and get the
    same answer from [docker ps] return the same result. *)
Theorem project_status_ignores_document :
  let ps := ["docker"; "ps"; "--format";
             "table {{.Names}}" +:+ tab +:+ "{{.Status}}" +:+ tab
             +:+ "{{.Ports}}"] in
  exists above below : string,
    forall (os1 os2 : OS) (arguments : gmap string pyval)
           (h : list syscall) (doc1 doc2 : string),
      os_open_read os1 h CLAUDE_md = Returned doc1 ->
      os_open_read os2 h CLAUDE_md = Returned doc2 ->
      os_exec os1 (h ++ [OpenRead CLAUDE_md]) ps =
        os_exec os2 (h ++ [OpenRead CLAUDE_md]) ps ->
      handle_call_tool os1 "get_project_status" arguments h =
        handle_call_tool os2 "get_project_status" arguments h /\
      forall table,
        os_exec os1 (h ++ [OpenRead CLAUDE_md]) ps = Returned table ->
        handle_call_tool os1 "get_project_status" arguments h =
          (Returned (text_content (above +:+ stdout table +:+ below)),
           h ++ [OpenRead CLAUDE_md] ++ [Exec ps]).
Proof.
  intros ps. eexists _, _.
  intros os1 os2 arguments h doc1 doc2 Hdoc1 Hdoc2 Hps.
  rewrite !handle_get_project_status.
  unfold try_except, get_project_status_try, bind, open_read.
  rewrite Hdoc1, Hdoc2.
  rewrite !(subprocess_run_returned _ docker_ps_cmd ps) by reflexivity.
  rewrite <- Hps. split; [reflexivity|].
  intros table ->. rewrite <- app_assoc. reflexivity.
Qed.

Lemma project_status_ignores_document_witness :
  handle_call_tool (steady_os 0 "NAMES   STATUS   PORTS" "" "# Notes")
      "get_project_status" ∅ [] =
    handle_call_tool (steady_os 0 "NAMES   STATUS   PORTS" "" "# To do")
      "get_project_status" ∅ [].
Proof.
  destruct project_status_ignores_document as (above & below & Hreport).
  refine (proj1 (Hreport
            (steady_os 0 "NAMES   STATUS   PORTS" "" "# Notes")
            (steady_os 0 "NAMES   STATUS   PORTS" "" "# To do")
            ∅ [] "# Notes" "# To do" _ _ _)); reflexivity.
Defined.

(** ** The registry *)

(** C9.  [handle_list_tools] is pure and deterministic: after any session
    of tool calls, in any environment and from any history, it returns the
    same three descriptors, [query_db], [get_project_status] and
    [analyze_logs] in this order, and leaves the history as it found it;
    calling it twice gives the same list twice. *)
Theorem list_tools_fixed :
  exists tools : list types.Tool,
    length tools = 3%nat /\
    types.name <$> tools =
      ["query_db"; "get_project_status"; "analyze_logs"] /\
    (forall h, handle_list_tools h = (Returned tools, h)) /\
    (forall os calls h,
       let h' := snd (dispatch_all os calls h) in
       handle_list_tools h' = (Returned tools, h')) /\
    (forall h,
       (first <- handle_list_tools ;;
        second <- handle_list_tools ;;
        ret (first, second)) h = (Returned (tools, tools), h)).
Proof.
  eexists. repeat apply conj; [| |reflexivity|reflexivity|reflexivity];
    reflexivity.
Qed.

(** * Beyond the claims *)

(** ** What the registry says of a tool *)

(** Walk a schema whose keys are known, up to the comparisons with a key
    that is not. *)
Ltac eval_closed_eqb :=
  repeat match goal with
  | |- context [String.eqb ?a ?b] =>
      let v := eval vm_compute in (String.eqb a b) in
      match v with
      | true => idtac
      | false => idtac
      end;
      change (String.eqb a b) with v
  end.

Ltac walk_schema :=
  unfold advertised, registry;
  repeat first [progress cbn -[String.eqb] | progress eval_closed_eqb].

Lemma advertised_unknown (tool : string) (path : list string) :
  tool ∉ ["query_db"; "get_project_status"; "analyze_logs"] ->
  advertised tool path = None.
Proof.
  intros Hout. unfold advertised, registry. cbn [handle_list_tools ret fst].
  cbn [List.find types.name].
  assert (forall known, known ∈ ["query_db"; "get_project_status";
                                 "analyze_logs"] ->
                        String.eqb known tool = false) as Hk.
  { intros known Hin. apply String.eqb_neq. by intros ->. }
  rewrite !Hk by (repeat constructor). reflexivity.
Qed.

(** The three names are the only ones to try. *)
Lemma tool_cases (tool : string) :
  tool = "query_db" \/ tool = "get_project_status" \/
  tool = "analyze_logs" \/
  tool ∉ ["query_db"; "get_project_status"; "analyze_logs"].
Proof.
  destruct (decide (tool = "query_db")); [by left|].
  destruct (decide (tool = "get_project_status")); [by right; left|].
  destruct (decide (tool = "analyze_logs")); [by right; right; left|].
  right; right; right. rewrite !not_elem_of_cons. by repeat split; [..|apply not_elem_of_nil].
Qed.

Lemma advertised_required (tool prop : string) :
  types.JString prop ∈ json_items (advertised tool ["required"]) ->
  (tool = "query_db" /\ prop = "query") \/
  (tool = "analyze_logs" /\ prop = "service").
Proof.
  destruct (tool_cases tool) as [->|[->|[->|Hout]]].
  - change (json_items _) with [types.JString "query"].
    rewrite list_elem_of_singleton. intros [= ->]. by left.
  - change (json_items _) with (@nil types.json). by intros ?%elem_of_nil.
  - change (json_items _) with [types.JString "service"].
    rewrite list_elem_of_singleton. intros [= ->]. by right.
  - rewrite advertised_unknown by done. by intros ?%elem_of_nil.
Qed.

Lemma advertised_default (tool prop : string) (d : pyval) :
  json_value (advertised tool ["properties"; prop; "default"]) = Some d ->
  (tool = "query_db" /\ prop = "database" /\ d = PStr "intellaccdb") \/
  (tool = "analyze_logs" /\ prop = "lines" /\ d = PInt 50).
Proof.
  destruct (tool_cases tool) as [->|[->|[->|Hout]]].
  - destruct (decide (prop = "query")) as [->|Hq]; [discriminate|].
    destruct (decide (prop = "database")) as [->|Hd];
      [intros [= <-]; by left|].
    apply String.eqb_neq in Hq, Hd.
    rewrite String.eqb_sym in Hq. rewrite String.eqb_sym in Hd.
    walk_schema. rewrite Hq. walk_schema. rewrite Hd. discriminate.
  - walk_schema. discriminate.
  - destruct (decide (prop = "service")) as [->|Hs]; [discriminate|].
    destruct (decide (prop = "lines")) as [->|Hl];
      [intros [= <-]; by right|].
    apply String.eqb_neq in Hs, Hl.
    rewrite String.eqb_sym in Hs. rewrite String.eqb_sym in Hl.
    walk_schema. rewrite Hs. walk_schema. rewrite Hl. discriminate.
  - rewrite advertised_unknown by done. discriminate.
Qed.

Lemma advertised_properties (tool : string) :
  json_keys (advertised tool ["properties"]) =
    if decide (tool = "query_db") then ["query"; "database"]
    else if decide (tool = "analyze_logs") then ["service"; "lines"]
    else [].
Proof.
  destruct (tool_cases tool) as [->|[->|[->|Hout]]]; try reflexivity.
  rewrite advertised_unknown by done.
  repeat case_decide; try reflexivity; subst; exfalso; apply Hout;
    repeat constructor.
Qed.

Lemma advertised_services (s : string) :
  types.JString s ∈
    json_items (advertised "analyze_logs" ["properties"; "service"; "enum"])
  <-> s ∈ ["backend"; "frontend"; "prediction-engine"; "db"].
Proof.
  change (json_items _) with
    (types.JString <$> ["backend"; "frontend"; "prediction-engine"; "db"]).
  rewrite list_elem_of_fmap. split.
  - by intros (s' & [= <-] & Hin).
  - intros Hin. by exists s.
Qed.

(** ** Every way a call can go *)

Lemma string_prefix_app (s t : string) : String.prefix s (s +:+ t) = true.
Proof.
  induction s as [|a s IH]; [by destruct t|].
  rewrite string_app_cons. cbn [String.prefix].
  by destruct (ascii_dec a a).
Qed.


(** A service of the table, and a line count that cannot be printed or
    cannot be passed on: nothing is started. *)
Lemma analyze_logs_unprintable (os : OS) (arguments : gmap string pyval)
    (h : list syscall) (service container e : string) :
  (service, container) ∈
    [("backend", "intellacc_backend"); ("frontend", "intellacc_frontend");
     ("prediction-engine", "intellacc_prediction_engine");
     ("db", "intellacc_db")] ->
  arguments !! "service" = Some (PStr service) ->
  py_str (default (PInt 50) (arguments !! "lines")) = Raised e ->
  handle_call_tool os "analyze_logs" arguments h =
    (Returned (text_content ("Error analyzing logs: " +:+ e)), h).
Proof.
  intros Htable Hservice Hlines.
  destruct (container_map_known _ _ Htable)
    as (Hcontainer & Htruthy & Hnul).
  rewrite handle_analyze_logs, (dict_get_present _ _ _ _ Hservice).
  change (dict_get arguments (PStr "lines") (PInt 50))
    with (default (PInt 50) (arguments !! "lines")).
  unfold try_except, analyze_logs_try, bind, str. cbv zeta.
  by rewrite Hcontainer, Htruthy, Hlines.
Qed.

Lemma analyze_logs_nul (os : OS) (arguments : gmap string pyval)
    (h : list syscall) (service container tail : string) :
  (service, container) ∈
    [("backend", "intellacc_backend"); ("frontend", "intellacc_frontend");
     ("prediction-engine", "intellacc_prediction_engine");
     ("db", "intellacc_db")] ->
  arguments !! "service" = Some (PStr service) ->
  py_str (default (PInt 50) (arguments !! "lines")) = Returned tail ->
  has_nul tail = true ->
  handle_call_tool os "analyze_logs" arguments h =
    (Returned (text_content ("Error analyzing logs: embedded null byte")),
     h).
Proof.
  intros Htable Hservice Hlines Htail%fsencode_nul.
  destruct (container_map_known _ _ Htable)
    as (Hcontainer & Htruthy & Hnul).
  rewrite handle_analyze_logs, (dict_get_present _ _ _ _ Hservice).
  change (dict_get arguments (PStr "lines") (PInt 50))
    with (default (PInt 50) (arguments !! "lines")).
  unfold try_except, analyze_logs_try, bind, str. cbv zeta.
  rewrite Hcontainer, Htruthy, Hlines. cbn [negb].
  by erewrite subprocess_run_raised by refuse_argv.
Qed.

Section Cases.

Variable os : OS.
Variable arguments : gmap string pyval.
Variable h : list syscall.

(** [query_db]: a refused argument vector, or the one command and what
    became of it. *)
Lemma query_db_cases :
  let database := default (PStr "intellaccdb") (arguments !! "database") in
  let query := default PNone (arguments !! "query") in
  (exists fault,
     (subprocess.fsencode database = Raised fault \/
      ((exists db, subprocess.fsencode database = Returned db) /\
       subprocess.fsencode query = Raised fault)) /\
     handle_call_tool os "query_db" arguments h =
       (Returned (text_content ("Error executing query: " +:+ fault)), h))
  \/
  (exists db q,
     subprocess.fsencode database = Returned db /\
     subprocess.fsencode query = Returned q /\
     let argv := ["docker"; "exec"; "intellacc_db"; "psql"; "-U";
                  "intellacc_user"; "-d"; db; "-c"; q] in
     (exists e,
        os_exec os h argv = Raised e /\
        handle_call_tool os "query_db" arguments h =
          (Returned (text_content ("Error executing query: " +:+ e)),
           h ++ [Exec argv])) \/
     (exists r,
        os_exec os h argv = Returned r /\ returncode r = 0 /\
        handle_call_tool os "query_db" arguments h =
          (Returned (text_content
             ("Query executed successfully:" +:+ nl +:+ nl +:+ stdout r)),
           h ++ [Exec argv])) \/
     (exists r,
        os_exec os h argv = Returned r /\ returncode r <> 0 /\
        handle_call_tool os "query_db" arguments h =
          (Returned (text_content ("Query failed:" +:+ nl +:+ stderr r)),
           h ++ [Exec argv]))).
Proof.
  intros database query.
  destruct (subprocess.fsencode database) as [db|e] eqn:Hdatabase.
  - destruct (subprocess.fsencode query) as [q|e] eqn:Hquery.
    + right. exists db, q. split; [done|]. split; [done|].
      rewrite (query_db_started os arguments h db q) by done.
      destruct (os_exec os h _) as [r|e] eqn:Hexec; [|left; by exists e].
      destruct (Z.eqb_spec (returncode r) 0) as [Hrc|Hrc];
        [right; left|right; right]; by exists r.
    + left. exists e. split; [right; eauto|].
      by apply (query_db_refused_query os arguments h db).
  - left. exists e. split; [by left|].
    by apply query_db_refused_database.
Qed.

(** [get_project_status]: the read fails, or [docker ps] cannot run, or the
    report is made. *)
Lemma get_project_status_cases :
  let ps := ["docker"; "ps"; "--format";
             "table {{.Names}}" +:+ tab +:+ "{{.Status}}" +:+ tab
             +:+ "{{.Ports}}"] in
  (exists e,
     os_open_read os h CLAUDE_md = Raised e /\
     handle_call_tool os "get_project_status" arguments h =
       (Returned (text_content ("Error getting project status: " +:+ e)),
        h ++ [OpenRead CLAUDE_md])) \/
  (exists doc,
     os_open_read os h CLAUDE_md = Returned doc /\
     ((exists e,
         os_exec os (h ++ [OpenRead CLAUDE_md]) ps = Raised e /\
         handle_call_tool os "get_project_status" arguments h =
           (Returned (text_content
              ("Error getting project status: " +:+ e)),
            h ++ [OpenRead CLAUDE_md; Exec ps])) \/
      (exists r rest,
         os_exec os (h ++ [OpenRead CLAUDE_md]) ps = Returned r /\
         handle_call_tool os "get_project_status" arguments h =
           (Returned (text_content
              (nl +:+ "# Intellacc Project Status" +:+ rest)),
            h ++ [OpenRead CLAUDE_md; Exec ps])))).
Proof.
  intros ps. rewrite handle_get_project_status.
  unfold try_except, get_project_status_try, bind, open_read.
  destruct (os_open_read os h CLAUDE_md) as [doc|e]; [right|left; eauto].
  exists doc. split; [done|].
  rewrite (subprocess_run_returned _ docker_ps_cmd ps) by reflexivity.
  rewrite <- (app_assoc h [OpenRead CLAUDE_md] [Exec ps]).
  destruct (os_exec os _ ps) as [r|e]; [right|left; eauto].
  exists r. eexists. split; [done|]. reflexivity.
Qed.

(** [analyze_logs]: an unknown service, or a line count that stops the
    call, or the one command and what became of it. *)
Lemma analyze_logs_cases :
  let service := default PNone (arguments !! "service") in
  let lines := default (PInt 50) (arguments !! "lines") in
  ((service ∉ [PStr "backend"; PStr "frontend"; PStr "prediction-engine";
               PStr "db"]) /\
   ((exists printed,
       py_str service = Returned printed /\
       handle_call_tool os "analyze_logs" arguments h =
         (Returned (text_content ("Unknown service: " +:+ printed)), h)) \/
    (exists e,
       py_str service = Raised e /\
       handle_call_tool os "analyze_logs" arguments h =
         (Returned (text_content ("Error analyzing logs: " +:+ e)), h))))
  \/
  (exists s container,
     service = PStr s /\
     (s, container) ∈
       [("backend", "intellacc_backend"); ("frontend", "intellacc_frontend");
        ("prediction-engine", "intellacc_prediction_engine");
        ("db", "intellacc_db")] /\
     ((exists e,
         handle_call_tool os "analyze_logs" arguments h =
           (Returned (text_content ("Error analyzing logs: " +:+ e)), h)) \/
      (exists tail,
         let argv := ["docker"; "logs"; "--tail"; tail; container] in
         (exists e,
            os_exec os h argv = Raised e /\
            handle_call_tool os "analyze_logs" arguments h =
              (Returned (text_content ("Error analyzing logs: " +:+ e)),
               h ++ [Exec argv])) \/
         (exists r rest,
            os_exec os h argv = Returned r /\
            handle_call_tool os "analyze_logs" arguments h =
              (Returned (text_content
                 (nl +:+ "# Log Analysis for " +:+ rest)),
               h ++ [Exec argv]))))).
Proof.
  intros service lines.
  destruct (decide (service ∈ [PStr "backend"; PStr "frontend";
                               PStr "prediction-engine"; PStr "db"]))
    as [Hin|Hout].
  - right.
    assert (exists s container,
              service = PStr s /\
              (s, container) ∈
                [("backend", "intellacc_backend");
                 ("frontend", "intellacc_frontend");
                 ("prediction-engine", "intellacc_prediction_engine");
                 ("db", "intellacc_db")]) as (s & container & Hs & Htable).
    { rewrite !elem_of_cons, elem_of_nil in Hin.
      destruct Hin as [Hs|[Hs|[Hs|[Hs|[]]]]]; rewrite Hs;
        [ exists "backend", "intellacc_backend"
        | exists "frontend", "intellacc_frontend"
        | exists "prediction-engine", "intellacc_prediction_engine"
        | exists "db", "intellacc_db" ];
        (split; [reflexivity|by_decide]). }
    exists s, container. split; [done|]. split; [done|].
    assert (arguments !! "service" = Some (PStr s)) as Hservice.
    { clear Hin. subst service.
      destruct (arguments !! "service") as [v|]; [|discriminate].
      cbn in Hs. by subst v. }
    destruct (py_str lines) as [tail|e] eqn:Hlines.
    + destruct (has_nul tail) eqn:Htail.
      * left. eexists.
        by apply (analyze_logs_nul os arguments h s container tail).
      * right. exists tail. cbv zeta.
        rewrite (analyze_logs_started os arguments h s container tail)
          by done.
        destruct (os_exec os h _) as [r|e]; [right|left; eauto].
        exists r. eexists. split; [done|]. reflexivity.
    + left. exists e.
      by apply (analyze_logs_unprintable os arguments h s container).
  - left. split; [done|]. rewrite handle_analyze_logs.
    change (dict_get arguments (PStr "service") PNone) with service.
    unfold try_except. rewrite analyze_logs_try_unknown by done.
    destruct (py_str service) as [printed|e]; [left|right]; eauto.
Qed.

End Cases.

(** ** What a call reaches *)

(** X1.  A call reaches the outside at most twice and only in these ways:
    [query_db] starts at most the one [psql] command in the [intellacc_db]
    container as [intellacc_user]; [analyze_logs] starts at most the one
    [docker logs] of one of the four containers; [get_project_status]
    reads the project document and then starts at most the one
    [docker ps]; any other name reaches nothing.  What was in the history
    stays. *)
Theorem external_calls_bounded (os : OS) (name : string)
    (arguments : gmap string pyval) (h : list syscall) :
  exists calls,
    snd (handle_call_tool os name arguments h) = h ++ calls /\
    (calls = [] \/
     (name = "query_db" /\
      exists db q,
        calls = [Exec ["docker"; "exec"; "intellacc_db"; "psql"; "-U";
                       "intellacc_user"; "-d"; db; "-c"; q]]) \/
     (name = "analyze_logs" /\
      exists n container,
        container ∈ ["intellacc_backend"; "intellacc_frontend";
                     "intellacc_prediction_engine"; "intellacc_db"] /\
        calls = [Exec ["docker"; "logs"; "--tail"; n; container]]) \/
     (name = "get_project_status" /\
      (calls = [OpenRead CLAUDE_md] \/
       calls = [OpenRead CLAUDE_md;
                Exec ["docker"; "ps"; "--format";
                      "table {{.Names}}" +:+ tab +:+ "{{.Status}}" +:+ tab
                      +:+ "{{.Ports}}"]]))).
Proof.
  destruct (tool_cases name) as [->|[->|[->|Hout]]].
  - destruct (query_db_cases os arguments h)
      as [(fault & _ & ->)|(db & q & _ & _ & Hrun)].
    + exists []. by rewrite app_nil_r; auto.
    + eexists. split; [|right; left; split; [done|by exists db, q]].
      by destruct Hrun as [(e & _ & ->)|[(r & _ & _ & ->)|(r & _ & _ & ->)]].
  - destruct (get_project_status_cases os arguments h)
      as [(e & _ & ->)|(doc & _ & [(e & _ & ->)|(r & rest & _ & ->)])];
      eexists; (split; [reflexivity|]); right; right; right; auto.
  - destruct (analyze_logs_cases os arguments h)
      as [[_ [(printed & _ & ->)|(e & _ & ->)]]
         |(s & container & _ & Htable & [(e & ->)|(tail & Hrun)])];
      try (exists []; by rewrite app_nil_r; auto).
    eexists. split;
      [by destruct Hrun as [(e & _ & ->)|(r & rest & _ & ->)]|].
    right; right; left. split; [done|]. eexists _, container.
    split; [|reflexivity].
    rewrite !elem_of_cons, elem_of_nil in Htable.
    destruct Htable as [[= _ ->]|[[= _ ->]|[[= _ ->]|[[= _ ->]|[]]]]];
      by_decide.
  - exists []. rewrite handle_unknown, app_nil_r; [auto|..];
      intros ->; apply Hout; repeat constructor.
Qed.

(** ** The project document *)

Lemma status_document_unreadable_witness :
  handle_call_tool broken_os "get_project_status" ∅ [] =
    (Returned (text_content
       ("Error getting project status: [Errno 2] No such file or directory: '"
        +:+ CLAUDE_md +:+ "'")),
     [OpenRead CLAUDE_md]).
Proof.
  apply (status_document_unreadable broken_os ∅ []). reflexivity.
Defined.

(** X3.  The status report looks at nothing of [docker ps] but its
    standard output: once the document is read and the command has run to
    its end, a failing exit status or an error stream changes nothing, and
    the text is never an error text. *)
Theorem project_status_ignores_exit_status (os1 os2 : OS)
    (arguments : gmap string pyval) (h : list syscall)
    (doc1 doc2 : string) (r1 r2 : CompletedProcess) :
  os_open_read os1 h CLAUDE_md = Returned doc1 ->
  os_open_read os2 h CLAUDE_md = Returned doc2 ->
  os_exec os1 (h ++ [OpenRead CLAUDE_md])
    ["docker"; "ps"; "--format";
     "table {{.Names}}" +:+ tab +:+ "{{.Status}}" +:+ tab +:+ "{{.Ports}}"]
    = Returned r1 ->
  os_exec os2 (h ++ [OpenRead CLAUDE_md])
    ["docker"; "ps"; "--format";
     "table {{.Names}}" +:+ tab +:+ "{{.Status}}" +:+ tab +:+ "{{.Ports}}"]
    = Returned r2 ->
  stdout r1 = stdout r2 ->
  handle_call_tool os1 "get_project_status" arguments h =
    handle_call_tool os2 "get_project_status" arguments h /\
  exists text,
    fst (handle_call_tool os1 "get_project_status" arguments h) =
      Returned (text_content text) /\
    String.prefix "Error" text = false.
Proof.
  intros Hdoc1 Hdoc2 Hps1 Hps2 Hout.
  rewrite !handle_get_project_status.
  unfold try_except, get_project_status_try, bind, open_read.
  rewrite Hdoc1, Hdoc2.
  rewrite !(subprocess_run_returned _ docker_ps_cmd _ _ eq_refl).
  rewrite Hps1, Hps2, Hout. split; [reflexivity|].
  eexists. split; reflexivity.
Qed.

Lemma project_status_ignores_exit_status_witness :
  handle_call_tool (steady_os 0 "" "" "# Notes") "get_project_status" ∅ [] =
    handle_call_tool
      (steady_os 1 "" "Cannot connect to the Docker daemon" "# Notes")
      "get_project_status" ∅ [].
Proof.
  refine (proj1 (project_status_ignores_exit_status
            (steady_os 0 "" "" "# Notes")
            (steady_os 1 "" "Cannot connect to the Docker daemon" "# Notes")
            ∅ [] "# Notes" "# Notes"
            {| returncode := 0; stdout := ""; stderr := "" |}
            {| returncode := 1; stdout := "";
               stderr := "Cannot connect to the Docker daemon" |}
            _ _ _ _ _)); reflexivity.
Defined.

(** ** Arguments *)

(** X4.  The dispatcher reads no argument but those the tool's schema
    lists as properties: two argument mappings that agree on them get the
    same result and make the same external calls. *)
Theorem only_advertised_properties_read (os : OS) (name : string)
    (arguments1 arguments2 : gmap string pyval) (h : list syscall) :
  (forall prop,
     prop ∈ json_keys (advertised name ["properties"]) ->
     arguments1 !! prop = arguments2 !! prop) ->
  handle_call_tool os name arguments1 h =
    handle_call_tool os name arguments2 h.
Proof.
  intros Hsame. rewrite advertised_properties in Hsame.
  destruct (tool_cases name) as [->|[->|[->|Hout]]].
  - rewrite !handle_query_db. unfold dict_get.
    rewrite (Hsame "query"), (Hsame "database"); [done|..];
      repeat constructor.
  - by rewrite !handle_get_project_status.
  - rewrite !handle_analyze_logs. unfold dict_get.
    rewrite (Hsame "service"), (Hsame "lines"); [done|..];
      repeat constructor.
  - rewrite !handle_unknown; [done|..]; intros ->; apply Hout;
      repeat constructor.
Qed.

Lemma only_advertised_properties_read_witness :
  handle_call_tool (steady_os 0 "rows: 3" "" "") "query_db"
      {[ "query" := PStr "select 1" ]} [] =
    handle_call_tool (steady_os 0 "rows: 3" "" "") "query_db"
      {[ "query" := PStr "select 1"; "timeout" := PInt 5 ]} [].
Proof.
  apply (only_advertised_properties_read (steady_os 0 "rows: 3" "" "")
           "query_db" {[ "query" := PStr "select 1" ]}
           {[ "query" := PStr "select 1"; "timeout" := PInt 5 ]} []).
  intros prop Hprop. change (prop ∈ ["query"; "database"]) in Hprop.
  rewrite !elem_of_cons, elem_of_nil in Hprop.
  destruct Hprop as [->|[->|[]]]; vm_compute; reflexivity.
Defined.



(** ** The registry and the dispatcher agree *)

Lemma text_content_inj (s t : string) :
  Returned (text_content s) = Returned (text_content t) -> s = t.
Proof. by intros [= ->]. Qed.

(** X6.  The dispatcher knows exactly the tools the registry lists: the
    text of a call starts with ["Unknown tool: "] if and only if the name
    is not one that [handle_list_tools] returns. *)
Theorem registry_matches_dispatcher (os : OS) (name : string)
    (arguments : gmap string pyval) (h : list syscall) (text : string) :
  fst (handle_call_tool os name arguments h) =
    Returned (text_content text) ->
  (name ∈ (types.name <$> registry) <->
   String.prefix "Unknown tool: " text = false).
Proof.
  change (types.name <$> registry)
    with ["query_db"; "get_project_status"; "analyze_logs"].
  intros Htext. destruct (tool_cases name) as [->|[->|[->|Hout]]].
  - split; [intros _|intros _; repeat constructor].
    destruct (query_db_cases os arguments h)
      as [(fault & _ & Hrun)
         |(db & q & _ & _ &
           [(e & _ & Hrun)|[(r & _ & _ & Hrun)|(r & _ & _ & Hrun)]])];
      rewrite Hrun in Htext; apply text_content_inj in Htext as <-;
      reflexivity.
  - split; [intros _|intros _; repeat constructor].
    destruct (get_project_status_cases os arguments h)
      as [(e & _ & Hrun)
         |(doc & _ & [(e & _ & Hrun)|(r & rest & _ & Hrun)])];
      rewrite Hrun in Htext; apply text_content_inj in Htext as <-;
      reflexivity.
  - split; [intros _|intros _; repeat constructor].
    destruct (analyze_logs_cases os arguments h)
      as [[_ [(printed & _ & Hrun)|(e & _ & Hrun)]]
         |(s & c & _ & _ &
           [(e & Hrun)
           |(tail & [(e & _ & Hrun)|(r & rest & _ & Hrun)])])];
      rewrite Hrun in Htext; apply text_content_inj in Htext as <-;
      reflexivity.
  - rewrite handle_unknown in Htext
      by (intros ->; apply Hout; repeat constructor).
    apply text_content_inj in Htext as <-.
    rewrite string_prefix_app. split; [done|discriminate].
Qed.

Lemma registry_matches_dispatcher_witness :
  "analyze_logs" ∈ (types.name <$> registry) <->
  String.prefix "Unknown tool: " "Unknown service: web" = false.
Proof.
  apply (registry_matches_dispatcher (steady_os 0 "" "" "") "analyze_logs"
           {[ "service" := PStr "web" ]} []).
  vm_compute. reflexivity.
Defined.

(** X7.  [analyze_logs] accepts exactly the services its schema
    enumerates: for a service given as a string, the text starts with
    ["Unknown service: "] if and only if the string is not in the schema's
    [enum]. *)
Theorem advertised_services_accepted (os : OS)
    (arguments : gmap string pyval) (h : list syscall) (s text : string) :
  arguments !! "service" = Some (PStr s) ->
  fst (handle_call_tool os "analyze_logs" arguments h) =
    Returned (text_content text) ->
  (types.JString s ∈
     json_items (advertised "analyze_logs" ["properties"; "service"; "enum"])
   <-> String.prefix "Unknown service: " text = false).
Proof.
  intros Hservice Htext. rewrite advertised_services.
  destruct (analyze_logs_cases os arguments h)
    as [[Hout [(printed & Hprinted & Hrun)|(e & Hraised & _)]]
       |(s' & c & Hs & Htable &
         [(e & Hrun)|(tail & [(e & _ & Hrun)|(r & rest & _ & Hrun)])])];
    rewrite Hservice in *; cbn [default] in *.
  - injection Hprinted as <-. rewrite Hrun in Htext.
    apply text_content_inj in Htext as <-. rewrite string_prefix_app.
    split; [|discriminate]. intros Hin. destruct Hout.
    rewrite !elem_of_cons, elem_of_nil in Hin.
    destruct Hin as [->|[->|[->|[->|[]]]]]; by_decide.
  - discriminate Hraised.
  - injection Hs as <-. rewrite Hrun in Htext.
    apply text_content_inj in Htext as <-.
    split; [reflexivity|intros _].
    rewrite !elem_of_cons, elem_of_nil in Htable.
    destruct Htable as [[= -> _]|[[= -> _]|[[= -> _]|[[= -> _]|[]]]]];
      by_decide.
  - injection Hs as <-. rewrite Hrun in Htext.
    apply text_content_inj in Htext as <-.
    split; [reflexivity|intros _].
    rewrite !elem_of_cons, elem_of_nil in Htable.
    destruct Htable as [[= -> _]|[[= -> _]|[[= -> _]|[[= -> _]|[]]]]];
      by_decide.
  - injection Hs as <-. rewrite Hrun in Htext.
    apply text_content_inj in Htext as <-.
    split; [reflexivity|intros _].
    rewrite !elem_of_cons, elem_of_nil in Htable.
    destruct Htable as [[= -> _]|[[= -> _]|[[= -> _]|[[= -> _]|[]]]]];
      by_decide.
Qed.

Lemma advertised_services_accepted_witness :
  types.JString "web" ∈
    json_items (advertised "analyze_logs" ["properties"; "service"; "enum"])
  <-> String.prefix "Unknown service: " "Unknown service: web" = false.
Proof.
  apply (advertised_services_accepted broken_os
           {[ "service" := PStr "web" ]} [] "web" "Unknown service: web");
    vm_compute; reflexivity.
Defined.

(** X9.  The defaults the schemas announce are the ones applied: where a
    tool's schema gives a property a default, leaving the property out is
    the same as passing the default. *)
Theorem advertised_default_applied (os : OS) (name prop : string)
    (d : pyval) (arguments : gmap string pyval) (h : list syscall) :
  json_value (advertised name ["properties"; prop; "default"]) = Some d ->
  arguments !! prop = None ->
  handle_call_tool os name arguments h =
    handle_call_tool os name (<[prop := d]> arguments) h.
Proof.
  intros [(-> & -> & ->)|(-> & -> & ->)]%advertised_default Habsent.
  - rewrite !handle_query_db, (dict_get_absent _ _ _ Habsent).
    rewrite (dict_get_present (<["database":=_]> arguments) "database"
               (PStr "intellaccdb")) by apply lookup_insert_eq.
    by rewrite dict_get_insert_ne.
  - rewrite !handle_analyze_logs, (dict_get_absent _ _ _ Habsent).
    rewrite (dict_get_present (<["lines":=_]> arguments) "lines" (PInt 50))
      by apply lookup_insert_eq.
    by rewrite dict_get_insert_ne.
Qed.

Lemma advertised_default_applied_witness :
  handle_call_tool (steady_os 0 "rows: 3" "" "") "query_db"
      {[ "query" := PStr "select 1" ]} [] =
    handle_call_tool (steady_os 0 "rows: 3" "" "") "query_db"
      (<["database" := PStr "intellaccdb"]> {[ "query" := PStr "select 1" ]})
      [].
Proof.
  apply (advertised_default_applied (steady_os 0 "rows: 3" "" "")
           "query_db" "database" (PStr "intellaccdb")
           {[ "query" := PStr "select 1" ]} []);
    vm_compute; reflexivity.
Defined.

(** X10.  A call that leaves out an argument its schema requires starts
    nothing and reads nothing: it is answered by a text alone. *)
Theorem required_missing_starts_nothing (os : OS) (name prop : string)
    (arguments : gmap string pyval) (h : list syscall) :
  types.JString prop ∈ json_items (advertised name ["required"]) ->
  arguments !! prop = None ->
  exists text,
    handle_call_tool os name arguments h = (Returned (text_content text), h).
Proof.
  intros [[-> ->]|[-> ->]]%advertised_required Habsent.
  - destruct (query_db_cases os arguments h)
      as [(fault & _ & ->)|(db & q & _ & Hq & _)]; [eauto|].
    rewrite Habsent in Hq. discriminate Hq.
  - destruct (analyze_logs_cases os arguments h)
      as [[_ [(printed & _ & ->)|(e & _ & ->)]]|(s & c & Hs & _)];
      [eauto..|].
    rewrite Habsent in Hs. discriminate Hs.
Qed.

Lemma required_missing_starts_nothing_witness :
  exists text,
    handle_call_tool (steady_os 0 "log" "" "") "analyze_logs"
      {[ "lines" := PInt 5 ]} [OpenRead "/etc/hosts"] =
    (Returned (text_content text), [OpenRead "/etc/hosts"]).
Proof.
  apply (required_missing_starts_nothing (steady_os 0 "log" "" "")
           "analyze_logs" "service" {[ "lines" := PInt 5 ]}
           [OpenRead "/etc/hosts"]).
  - vm_compute. constructor.
  - vm_compute. reflexivity.
Defined.

(** ** Telling the outcomes of a query apart *)

(** A run supposed to have gone another way than it did. *)
Ltac no_such_run :=
  repeat match goal with
  | H : _ \/ _ |- _ => destruct H
  | H : exists _, _ |- _ => destruct H
  | H : _ /\ _ |- _ => destruct H
  | H : ?h = ?h ++ [_] |- _ => by apply history_grows in H
  | H : ?h ++ [_] = ?h |- _ => symmetry in H; by apply history_grows in H
  | H : ?h ++ [Exec _] = ?h ++ [Exec _] |- _ =>
      apply app_inv_head in H; simplify_eq
  end;
  congruence.

Ltac by_prefix :=
  split;
  [ intros Hprefix; first [by vm_compute in Hprefix | eauto 10]
  | intros Hother; first [apply string_prefix_app | exfalso; no_such_run] ].

(** X8.  What became of a query can be read off the start of the text:
    it starts with ["Query executed successfully:"] exactly when the
    command ran and exited with status zero, with ["Query failed:"]
    exactly when it ran and exited with another status, and with
    ["Error executing query: "] exactly when it did not run to its end:
    nothing was started, or starting it raised a fault. *)
Theorem query_db_outcome_by_prefix (os : OS)
    (arguments : gmap string pyval) (h : list syscall) (text : string) :
  fst (handle_call_tool os "query_db" arguments h) =
    Returned (text_content text) ->
  (String.prefix "Query executed successfully:" text = true <->
   exists argv r,
     snd (handle_call_tool os "query_db" arguments h) = h ++ [Exec argv] /\
     os_exec os h argv = Returned r /\ returncode r = 0) /\
  (String.prefix "Query failed:" text = true <->
   exists argv r,
     snd (handle_call_tool os "query_db" arguments h) = h ++ [Exec argv] /\
     os_exec os h argv = Returned r /\ returncode r <> 0) /\
  (String.prefix "Error executing query: " text = true <->
   snd (handle_call_tool os "query_db" arguments h) = h \/
   exists argv e,
     snd (handle_call_tool os "query_db" arguments h) = h ++ [Exec argv] /\
     os_exec os h argv = Raised e).
Proof.
  intros Htext.
  destruct (query_db_cases os arguments h)
    as [(fault & _ & Hrun)
       |(db & q & _ & _ &
         [(e & Hexec & Hrun)
         |[(r & Hexec & Hrc & Hrun)|(r & Hexec & Hrc & Hrun)]])];
    rewrite Hrun in Htext |- *; apply text_content_inj in Htext as <-;
    cbn [snd]; (split; [|split]); by_prefix.
Qed.

Lemma query_db_outcome_by_prefix_witness :
  String.prefix "Query failed:" ("Query failed:" +:+ nl +:+ "syntax error") =
    true <->
  exists argv r,
    snd (handle_call_tool (steady_os 1 "" "syntax error" "") "query_db"
           {[ "query" := PStr "selec 1" ]} []) = [] ++ [Exec argv] /\
    os_exec (steady_os 1 "" "syntax error" "") [] argv = Returned r /\
    returncode r <> 0.
Proof.
  refine (proj1 (proj2 (query_db_outcome_by_prefix
            (steady_os 1 "" "syntax error" "")
            {[ "query" := PStr "selec 1" ]} []
            ("Query failed:" +:+ nl +:+ "syntax error") _))).
  vm_compute. reflexivity.
Defined.
